(** * tools/json_converter.py: JSON list of records to semicolon-separated text

    A shallow embedding of the converter script and the properties of its
    output.  The script opens [../resistance.json], parses it with
    [json.load], prints a header, prints one [article;resistance] row per
    record and leaves through [sys.exit].

    Modelling choices:
    - a parsed JSON document is a [value], the Python object [json.load]
      builds ([None], [bool], [int], [float], [str], [list], [dict]);
    - a Python [str] is a sequence of Unicode code points, lone surrogates
      included, as [json.load] builds them from [\uXXXX] escapes;
    - standard output is the text written so far; [print] raises
      [UnicodeEncodeError], writing nothing, when the encoding of standard
      output cannot encode its text, and otherwise succeeds;
    - a statement is a computation of type [M A]: it takes the text already on
      standard output and gives back the text afterwards together with a
      value or the exception raised ([SystemExit] included, as in Python);
    - what the script takes from the interpreter and its environment and does
      not define ([json.loads], [repr] of a [float], [repr] of a [str], the
      characters the encoding of standard output can encode) are variables of
      the section. *)

From Stdlib Require Import String Ascii List NArith ZArith Bool DecimalString.
From Stdlib Require Import Floats.SpecFloat.
Import ListNotations.

Local Open Scope string_scope.
Local Open Scope list_scope.

Set Warnings "-register-all".

(** ** Python strings *)

(** A character is a Unicode code point. *)
Definition char : Type := N.

Definition str : Type := list char.

(** The [str] of an ASCII literal of the source. *)
Definition lit (s : string) : str :=
  map N_of_ascii (list_ascii_of_string s).

(** The line feed [print] ends every line with. *)
Definition LF : char := 10%N.

Definition newline : str := [LF].

(** ** Python objects produced by [json.load] *)

Inductive value : Type :=
| VNone
| VBool (b : bool)
| VInt (n : Z)
| VFloat (f : spec_float)
| VStr (s : str)
| VList (items : list value)
| VDict (entries : list (str * value)).

(** ** Exceptions the script can meet *)

Inductive exn : Type :=
| FileNotFoundError
| PermissionError
| UnicodeDecodeError
| UnicodeEncodeError
| JSONDecodeError
| TypeError
| IndexError
| KeyError
| SystemExit (code : Z).

Inductive result (A : Type) : Type :=
| Ok (a : A)
| Raise (e : exn).

Arguments Ok {A} a.
Arguments Raise {A} e.

(** ** The output-and-exception monad *)

Definition M (A : Type) : Type := str -> str * result A.

Definition ret {A} (a : A) : M A := fun out => (out, Ok a).

Definition raise {A} (e : exn) : M A := fun out => (out, Raise e).

Definition bind {A B} (m : M A) (k : A -> M B) : M B :=
  fun out =>
    match m out with
    | (out', Ok a) => k a out'
    | (out', Raise e) => (out', Raise e)
    end.

Definition lift {A} (r : result A) : M A := fun out => (out, r).

Notation "x <- m ;; k" := (bind m (fun x => k))
  (at level 61, m at next level, right associativity).
Notation "m ;;; k" := (bind m (fun _ => k))
  (at level 61, right associativity).

(** [sys.exit(code)] raises [SystemExit]. *)
Definition sys_exit (code : Z) : M unit := raise (SystemExit code).

(** ** Iteration and subscripting *)

(** The characters of a [str], each as a [str] of length one. *)
Fixpoint chars (s : str) : list value :=
  match s with
  | [] => []
  | c :: s' => VStr [c] :: chars s'
  end.

(** What [for r in data] runs over: the items of a list, the characters of a
    string, the keys of a dict; anything else is not iterable. *)
Definition iter (data : value) : result (list value) :=
  match data with
  | VList items => Ok items
  | VStr s => Ok (chars s)
  | VDict entries => Ok (map (fun kv => VStr (fst kv)) entries)
  | VNone | VBool _ | VInt _ | VFloat _ => Raise TypeError
  end.

(** [xs[i]] for a non-negative literal index [i]. *)
Definition index_seq (xs : list value) (i : nat) : result value :=
  match nth_error xs i with
  | Some v => Ok v
  | None => Raise IndexError
  end.

(** [r[i]] for the literal indices the script uses (0 and 1).  The keys of a
    dict built by [json.load] are all strings, so an integer key is never
    found. *)
Definition getitem (r : value) (i : nat) : result value :=
  match r with
  | VList items => index_seq items i
  | VStr s => index_seq (chars s) i
  | VDict _ => Raise KeyError
  | VNone | VBool _ | VInt _ | VFloat _ => Raise TypeError
  end.

(** ** The loop *)

Fixpoint for_each (body : value -> M unit) (items : list value) : M unit :=
  match items with
  | [] => ret tt
  | r :: rest => body r ;;; for_each body rest
  end.

(** ** The file system seen by [open] and [read] *)

Inductive file_state : Type :=
| Missing
| Unreadable
| Undecodable
| Text (content : str).

Definition filesystem : Type := string -> file_state.

(** [open(path, 'r', encoding="utf-8")]: the handle is the state of the file. *)
Definition open (fs : filesystem) (path : string) : M file_state :=
  match fs path with
  | Missing => raise FileNotFoundError
  | Unreadable => raise PermissionError
  | st => ret st
  end.

(** [file.read()] under the UTF-8 decoder. *)
Definition read (file : file_state) : M str :=
  match file with
  | Text content => ret content
  | Undecodable => raise UnicodeDecodeError
  | Missing => raise FileNotFoundError
  | Unreadable => raise PermissionError
  end.

(** [with open(...) as file: body].  Leaving the block closes the file; the
    file object's [__exit__] never swallows an exception, so whatever the body
    raises goes on. *)
Definition with_open (fs : filesystem) (path : string)
    (body : file_state -> M unit) : M unit :=
  file <- open fs path ;; body file.

(** ** How the process ends *)

Inductive outcome : Type :=
| Exited (code : Z)
| Crashed (e : exn).

(** The interpreter turns the end of the script into an outcome: running off
    the end and [SystemExit] are deliberate exits, any other exception is
    uncaught and ends the run with a traceback. *)
Definition outcome_of (r : result unit) : outcome :=
  match r with
  | Ok _ => Exited 0
  | Raise (SystemExit code) => Exited code
  | Raise e => Crashed e
  end.

(** The status handed to the invoking environment: the code given to
    [sys.exit], or 1 after an uncaught exception. *)
Definition status (o : outcome) : Z :=
  match o with
  | Exited code => code
  | Crashed _ => 1
  end.

(** ** Scenario documents *)

(** Documents to run the script on, with stand-ins for the interpreter's
    routines that are enough for them: the parser [loads] knows these
    documents and rejects every other text; no document holds a float or a
    string nested inside an element, so the stand-ins [frepr] and [srepr] for
    the two [repr] routines are never consulted.  Standard output is taken
    with the UTF-8 encoding, which encodes every code point but the
    surrogates. *)

Definition dq : string := String (ascii_of_nat 34) "".

Definition quoted (s : string) : string := (dq ++ s ++ dq)%string.

Definition doc_two_rows : str :=
  lit ("[[" ++ quoted "R1" ++ ", " ++ quoted "10k" ++ "], ["
            ++ quoted "R2" ++ ", " ++ quoted "220" ++ "]]")%string.

Definition doc_empty : str := lit "[]".

Definition doc_extra : str :=
  lit ("[[" ++ quoted "R1" ++ ", 100, " ++ quoted "extra" ++ "]]")%string.

Definition doc_one_field : str :=
  lit ("[[" ++ quoted "OnlyOneField" ++ "]]")%string.

Definition doc_short_second : str :=
  lit ("[[" ++ quoted "R1" ++ ", " ++ quoted "10k" ++ "], ["
            ++ quoted "R2" ++ "], ["
            ++ quoted "R3" ++ ", 47]]")%string.

Definition doc_semicolon : str :=
  lit ("[[" ++ quoted "a;b" ++ ", -5]]")%string.

(** The JSON escape [\n] inside a string stands for a line feed. *)
Definition doc_line_feed : str :=
  lit ("[[" ++ quoted "a\nb" ++ ", " ++ quoted "c" ++ "]]")%string.

(** The JSON escape [\ud800] stands for a lone surrogate. *)
Definition doc_surrogate : str :=
  lit ("[[" ++ quoted "R1" ++ ", " ++ quoted "10k" ++ "], ["
            ++ quoted "\ud800" ++ ", 1], ["
            ++ quoted "R2" ++ ", " ++ quoted "220" ++ "]]")%string.

Definition doc_surrogate_then_short : str :=
  lit ("[[" ++ quoted "\ud800" ++ ", 1], [" ++ quoted "x" ++ "]]")%string.

Definition doc_truncated : str := lit "[[".

Definition doc_object : str :=
  lit ("{" ++ quoted "ab" ++ ": 1, " ++ quoted "cd" ++ ": [2]}")%string.

Definition doc_object_keys : str :=
  lit ("[" ++ quoted "ab" ++ ", " ++ quoted "cd" ++ "]")%string.

Definition doc_string : str := lit (quoted "R1").

Definition doc_number : str := lit "42".

Definition doc_number_record : str :=
  lit ("[[" ++ quoted "R1" ++ ", " ++ quoted "10k" ++ "], 5, ["
            ++ quoted "R2" ++ ", " ++ quoted "220" ++ "]]")%string.

Definition doc_number_last : str :=
  lit ("[[" ++ quoted "R1" ++ ", " ++ quoted "10k" ++ "], 5]")%string.

Definition doc_three_rows : str :=
  lit ("[[" ++ quoted "R1" ++ ", " ++ quoted "10k" ++ "], ["
            ++ quoted "R2" ++ ", " ++ quoted "220" ++ "], ["
            ++ quoted "R1" ++ ", 100, " ++ quoted "extra" ++ "]]")%string.

Definition surrogate : char := 55296%N.

Definition two_rows : list value :=
  [VList [VStr (lit "R1"); VStr (lit "10k")];
   VList [VStr (lit "R2"); VStr (lit "220")]].

Definition extra_row : list value :=
  [VList [VStr (lit "R1"); VInt 100; VStr (lit "extra")]].

Definition one_field : list value := [VList [VStr (lit "OnlyOneField")]].

Definition short_second : list value :=
  [VList [VStr (lit "R1"); VStr (lit "10k")]; VList [VStr (lit "R2")];
   VList [VStr (lit "R3"); VInt 47]].

Definition semicolon_row : list value :=
  [VList [VStr (lit "a;b"); VInt (-5)]].

Definition line_feed_row : list value :=
  [VList [VStr (lit "a" ++ newline ++ lit "b"); VStr (lit "c")]].

Definition surrogate_rows : list value :=
  [VList [VStr (lit "R1"); VStr (lit "10k")];
   VList [VStr [surrogate]; VInt 1];
   VList [VStr (lit "R2"); VStr (lit "220")]].

Definition surrogate_then_short : list value :=
  [VList [VStr [surrogate]; VInt 1]; VList [VStr (lit "x")]].

Definition object_entries : list (str * value) :=
  [(lit "ab", VInt 1); (lit "cd", VList [VInt 2])].

Definition number_record : list value :=
  [VList [VStr (lit "R1"); VStr (lit "10k")]; VInt 5;
   VList [VStr (lit "R2"); VStr (lit "220")]].

Definition known_documents : list (str * value) :=
  [(doc_two_rows, VList two_rows);
   (doc_empty, VList []);
   (doc_extra, VList extra_row);
   (doc_one_field, VList one_field);
   (doc_short_second, VList short_second);
   (doc_semicolon, VList semicolon_row);
   (doc_line_feed, VList line_feed_row);
   (doc_surrogate, VList surrogate_rows);
   (doc_surrogate_then_short, VList surrogate_then_short);
   (doc_object, VDict object_entries);
   (doc_object_keys, VList [VStr (lit "ab"); VStr (lit "cd")]);
   (doc_string, VStr (lit "R1"));
   (doc_number, VInt 42);
   (doc_number_record, VList number_record);
   (doc_number_last,
    VList [VList [VStr (lit "R1"); VStr (lit "10k")]; VInt 5]);
   (doc_three_rows, VList (two_rows ++ extra_row))].

Fixpoint str_eqb (s t : str) : bool :=
  match s, t with
  | [], [] => true
  | c :: s', d :: t' => (c =? d)%N && str_eqb s' t'
  | _, _ => false
  end.

Fixpoint lookup (table : list (str * value)) (text : str) : option value :=
  match table with
  | [] => None
  | (t, v) :: rest => if str_eqb t text then Some v else lookup rest text
  end.

Definition loads : str -> option value := lookup known_documents.

Definition frepr (f : spec_float) : str := lit "nan".

Definition srepr (s : str) : str := lit "'" ++ s ++ lit "'".

Definition utf8 (c : char) : bool :=
  negb ((55296 <=? c)%N && (c <=? 57343)%N).

(** A file system with the given state at the script's path and nothing
    else. *)
Definition disk (st : file_state) : filesystem :=
  fun path => if String.eqb path "../resistance.json" then st else Missing.

Section Converter.

(** [repr] of a [float] and of a [str], [json.loads], and the characters
    beyond ASCII that the encoding of standard output can encode: given by
    the interpreter and its environment. *)
Variable float_repr : spec_float -> str.
Variable str_repr : str -> str.
Variable json_loads : str -> option value.
Variable stdout_encodes : char -> bool.

(** ** Writing to standard output *)

(** The encodings Python gives standard output all encode the ASCII
    characters. *)
Definition can_write (s : str) : bool :=
  forallb (fun c => (c <? 128)%N || stdout_encodes c) s.

(** [print(s)]: the text, then a line feed.  The text is encoded as a whole
    before any of it is written, so when it cannot be encoded nothing is
    written. *)
Definition print (s : str) : M unit :=
  fun out =>
    if can_write s then (out ++ s ++ newline, Ok tt)
    else (out, Raise UnicodeEncodeError).

(** ** Textual forms *)

Definition int_str (n : Z) : str :=
  lit (NilZero.string_of_int (Z.to_int n)).

Fixpoint join (sep : str) (parts : list str) : str :=
  match parts with
  | [] => []
  | x :: rest =>
      match rest with
      | [] => x
      | _ :: _ => x ++ sep ++ join sep rest
      end
  end.

Definition join_comma (parts : list str) : str := join (lit ", ") parts.

(** [repr(v)]. *)
Fixpoint py_repr (v : value) : str :=
  match v with
  | VNone => lit "None"
  | VBool true => lit "True"
  | VBool false => lit "False"
  | VInt n => int_str n
  | VFloat f => float_repr f
  | VStr s => str_repr s
  | VList items => lit "[" ++ join_comma (map py_repr items) ++ lit "]"
  | VDict entries =>
      lit "{" ++ join_comma
                   (map (fun kv =>
                           str_repr (fst kv) ++ lit ": " ++ py_repr (snd kv))
                        entries) ++ lit "}"
  end.

(** [str(v)], which is what a replacement field [{v}] of an f-string
    inserts: a [str] as it is, everything else as its [repr]. *)
Definition py_str (v : value) : str :=
  match v with
  | VStr s => s
  | _ => py_repr v
  end.

(** ** The script *)

(** [json.load(file)]. *)
Definition json_load (file : file_state) : M value :=
  text <- read file ;;
  match json_loads text with
  | Some v => ret v
  | None => raise JSONDecodeError
  end.

(** The body of the [for] loop. *)
Definition loop_body (r : value) : M unit :=
  article <- lift (getitem r 0) ;;
  resistance <- lift (getitem r 1) ;;
  print (py_str article ++ lit ";" ++ py_str resistance).

(** Everything after [data = json.load(file)] inside the [with] block. *)
Definition emit (data : value) : M unit :=
  print (lit "article;resistance") ;;;
  (items <- lift (iter data) ;; for_each loop_body items) ;;;
  sys_exit 0.

Definition script (fs : filesystem) : M unit :=
  with_open fs "../resistance.json"
    (fun file => data <- json_load file ;; emit data) ;;;
  sys_exit (-1).

(** A run starts with nothing on standard output. *)
Definition run (fs : filesystem) : str * outcome :=
  let (out, r) := script fs [] in (out, outcome_of r).

(** ** Notions the properties are stated with *)

(** The positional elements of a record: the items of a list, the characters
    of a string.  Nothing else has positions. *)
Definition elements (r : value) : option (list value) :=
  match r with
  | VList items => Some items
  | VStr s => Some (chars s)
  | _ => None
  end.


(** A record with at least two elements. *)
Definition well_formed (r : value) : bool :=
  match elements r with
  | Some (_ :: _ :: _) => true
  | _ => false
  end.

(** A record with fewer than two elements. *)
Definition short (r : value) : bool :=
  match elements r with
  | Some [] | Some [_] => true
  | _ => false
  end.

(** The row made of two fields. *)
Definition row_text (article resistance : value) : str :=
  py_str article ++ lit ";" ++ py_str resistance.

(** The row of a record with at least two elements. *)
Definition row_of (r : value) : str :=
  match elements r with
  | Some (article :: resistance :: _) => row_text article resistance
  | _ => []
  end.

(** Standard output can encode the row of the record. *)
Definition encodable (r : value) : bool := can_write (row_of r).

(** A record the loop gets past: two elements, and a row that can be
    written. *)
Definition row_ok (r : value) : bool := well_formed r && encodable r.

Definition header : str := lit "article;resistance".

(** The text made of the given lines, each ended by a line feed. *)
Fixpoint unlines (ls : list str) : str :=
  match ls with
  | [] => []
  | l :: rest => l ++ newline ++ unlines rest
  end.

(** The lines of a text: the pieces between line feeds. *)
Fixpoint lines (s : str) : list str :=
  match s with
  | [] => []
  | c :: s' =>
      if N.eqb c LF then [] :: lines s'
      else match lines s' with
           | [] => [[c]]
           | l :: ls => (c :: l) :: ls
           end
  end.

(** No line feed inside the text. *)
Fixpoint no_lf (s : str) : bool :=
  match s with
  | [] => true
  | c :: s' => negb (N.eqb c LF) && no_lf s'
  end.

(** The document the script reads parses to [data]. *)
Definition parses_to (fs : filesystem) (data : value) : Prop :=
  exists text,
    fs "../resistance.json" = Text text /\ json_loads text = Some data.

(** The document cannot be opened, cannot be decoded, or is not JSON. *)
Definition unusable (fs : filesystem) : Prop :=
  fs "../resistance.json" = Missing \/
  fs "../resistance.json" = Unreadable \/
  fs "../resistance.json" = Undecodable \/
  exists text,
    fs "../resistance.json" = Text text /\ json_loads text = None.

(** The natural text of a scalar: a string as it is, an integer in decimal
    digits, a float as the interpreter writes floats. *)
Definition scalar (v : value) : bool :=
  match v with
  | VInt _ | VFloat _ | VStr _ => true
  | _ => false
  end.

Definition scalar_text (v : value) : str :=
  match v with
  | VStr s => s
  | VInt n => int_str n
  | VFloat f => float_repr f
  | _ => []
  end.

(** The records at the head of the array that the loop gets past. *)
Fixpoint good_prefix (items : list value) : list value :=
  match items with
  | [] => []
  | r :: rest => if row_ok r then r :: good_prefix rest else []
  end.

(** The first item the loop does not get past, if there is one. *)
Fixpoint first_bad (items : list value) : option value :=
  match items with
  | [] => None
  | r :: rest => if row_ok r then first_bad rest else Some r
  end.

(** The exception at an item the loop does not get past: the row of a record
    with two elements cannot be encoded; otherwise, by the kind of item, out
    of range for a list or a string, missing key for an object, no subscript
    at all for the rest. *)
Definition record_error (r : value) : exn :=
  if well_formed r then UnicodeEncodeError
  else match r with
       | VList _ | VStr _ => IndexError
       | VDict _ => KeyError
       | VNone | VBool _ | VInt _ | VFloat _ => TypeError
       end.

Definition array_outcome (items : list value) : outcome :=
  match first_bad items with
  | None => Exited 0
  | Some r => Crashed (record_error r)
  end.

(** A document that is no list, string or object. *)
Definition atom (v : value) : bool :=
  match v with
  | VNone | VBool _ | VInt _ | VFloat _ => true
  | _ => false
  end.

(** ** Texts and lines *)

Lemma unlines_app (xs ys : list str) :
  unlines (xs ++ ys) = unlines xs ++ unlines ys.
Proof.
  induction xs as [|x xs IH]; cbn [app unlines]; [reflexivity|].
  now rewrite IH, <- !app_assoc.
Qed.

Lemma lines_line (s rest : str) :
  no_lf s = true -> lines (s ++ newline ++ rest) = s :: lines rest.
Proof.
  induction s as [|c s IH]; intros H.
  - reflexivity.
  - cbn [no_lf] in H. apply andb_true_iff in H as [Hc Hs].
    apply negb_true_iff in Hc.
    cbn [app lines]. rewrite Hc, (IH Hs). reflexivity.
Qed.

Lemma lines_unlines (ls : list str) :
  forallb no_lf ls = true -> lines (unlines ls) = ls.
Proof.
  induction ls as [|l ls IH]; intros H; [reflexivity|].
  cbn [forallb] in H. apply andb_true_iff in H as [Hl Hls].
  cbn [unlines]. now rewrite (lines_line _ _ Hl), (IH Hls).
Qed.

Lemma header_can_be_written : can_write header = true.
Proof. reflexivity. Qed.

(** ** One turn of the loop *)

Lemma getitem_elements (r : value) (xs : list value) (i : nat) :
  elements r = Some xs -> getitem r i = index_seq xs i.
Proof. destruct r; simpl; intros H; inversion H; reflexivity. Qed.

Lemma loop_body_two (r article resistance : value) (rest : list value)
    (out : str) :
  elements r = Some (article :: resistance :: rest) ->
  loop_body r out = print (row_text article resistance) out.
Proof.
  intros H. unfold loop_body, bind, lift.
  rewrite !(getitem_elements _ _ _ H). reflexivity.
Qed.

Lemma loop_body_ok (r : value) (out : str) :
  row_ok r = true ->
  loop_body r out = (out ++ row_of r ++ newline, Ok tt).
Proof.
  unfold row_ok, encodable, well_formed, row_of. intros H.
  destruct (elements r) as [[|a [|b rest]]|] eqn:E; try discriminate.
  cbn [andb] in H. rewrite (loop_body_two _ _ _ _ _ E). unfold print.
  now rewrite H.
Qed.


Lemma loop_body_bad (r : value) (out : str) :
  row_ok r = false -> loop_body r out = (out, Raise (record_error r)).
Proof.
  unfold row_ok, encodable, record_error. intros H.
  destruct (well_formed r) eqn:Hw.
  - cbn [andb] in H. revert Hw H. unfold well_formed, row_of.
    destruct (elements r) as [[|a [|b rest]]|] eqn:E; try discriminate.
    intros _ H. rewrite (loop_body_two _ _ _ _ _ E). unfold print.
    now rewrite H.
  - revert Hw. unfold well_formed, loop_body, bind, lift.
    destruct r as [| b | n | f | s | items | entries]; try reflexivity.
    + destruct s as [|c [|d s]]; intros Hw; try reflexivity; discriminate.
    + destruct items as [|a [|b rest]]; intros Hw; try reflexivity;
        discriminate.
Qed.

Lemma record_error_crashes (r : value) :
  outcome_of (Raise (record_error r)) = Crashed (record_error r).
Proof. unfold record_error. destruct (well_formed r), r; reflexivity. Qed.

(** ** The whole loop *)

Lemma for_each_cons (body : value -> M unit) (r : value) (rest : list value)
    (out : str) :
  for_each body (r :: rest) out =
  match body r out with
  | (out', Ok _) => for_each body rest out'
  | (out', Raise e) => (out', Raise e)
  end.
Proof. reflexivity. Qed.

Lemma for_each_app (body : value -> M unit) (xs ys : list value)
    (out : str) :
  for_each body (xs ++ ys) out =
  match for_each body xs out with
  | (out', Ok _) => for_each body ys out'
  | (out', Raise e) => (out', Raise e)
  end.
Proof.
  revert out. induction xs as [|x xs IH]; intros out.
  - reflexivity.
  - cbn [app]. rewrite !for_each_cons.
    destruct (body x out) as [o [u|e]]; [apply IH | reflexivity].
Qed.

(** The loop gets through the records at the head of the sequence that have
    two elements and a row that can be written, and stops at the first item
    that is not like that. *)
Lemma for_each_run (items : list value) (out : str) :
  for_each loop_body items out
  = (out ++ unlines (map row_of (good_prefix items)),
     match first_bad items with
     | None => Ok tt
     | Some r => Raise (record_error r)
     end).
Proof.
  revert out. induction items as [|r rs IH]; intros out.
  - cbn. now rewrite app_nil_r.
  - rewrite for_each_cons. cbn [good_prefix first_bad].
    destruct (row_ok r) eqn:Hr.
    + rewrite (loop_body_ok _ _ Hr), IH. cbn [map unlines].
      now rewrite <- !app_assoc.
    + rewrite (loop_body_bad _ _ Hr). cbn [map unlines].
      now rewrite app_nil_r.
Qed.

Lemma first_bad_none (items : list value) :
  first_bad items = None <-> forallb row_ok items = true.
Proof.
  induction items as [|r rs IH]; cbn [first_bad forallb]; [tauto|].
  destruct (row_ok r); cbn [andb]; [exact IH|].
  split; discriminate.
Qed.

Lemma good_prefix_all (items : list value) :
  forallb row_ok items = true -> good_prefix items = items.
Proof.
  induction items as [|r rs IH]; cbn [good_prefix forallb]; [reflexivity|].
  destruct (row_ok r); cbn [andb]; [|discriminate].
  intros H. now rewrite (IH H).
Qed.

Lemma good_prefix_app (xs ys : list value) :
  forallb row_ok xs = true ->
  good_prefix (xs ++ ys) = xs ++ good_prefix ys /\
  first_bad (xs ++ ys) = first_bad ys.
Proof.
  induction xs as [|r rs IH]; cbn [good_prefix first_bad forallb app];
    [tauto|].
  destruct (row_ok r); cbn [andb]; [|discriminate].
  intros H. destruct (IH H) as [-> ->]. tauto.
Qed.

Lemma good_prefix_stops (pre post : list value) (bad : value) :
  row_ok bad = false ->
  good_prefix (pre ++ bad :: post) = good_prefix (pre ++ [bad]) /\
  first_bad (pre ++ bad :: post) = first_bad (pre ++ [bad]).
Proof.
  intros Hb. induction pre as [|r rs [IHg IHb]];
    cbn [good_prefix first_bad app].
  - rewrite Hb. tauto.
  - destruct (row_ok r); [rewrite IHg, IHb|]; tauto.
Qed.

Lemma good_prefix_firstn (items : list value) :
  exists k, k <= length items /\ good_prefix items = firstn k items.
Proof.
  induction items as [|r rs (k & Hk & IH)]; cbn [good_prefix].
  - exists 0. split; [apply le_n | reflexivity].
  - destruct (row_ok r).
    + exists (S k). split; [apply le_n_S, Hk|]. cbn [firstn]. now rewrite IH.
    + exists 0. split; [apply Nat.le_0_l | reflexivity].
Qed.

Lemma rows_ok (items : list value) :
  forallb well_formed items = true ->
  forallb encodable items = true ->
  forallb row_ok items = true.
Proof.
  rewrite !forallb_forall. intros Hw He r Hr. unfold row_ok.
  now rewrite (Hw r Hr), (He r Hr).
Qed.

(** ** The script around the loop *)

Lemma emit_eq (data : value) (out : str) :
  emit data out =
  match iter data with
  | Ok items =>
      match for_each loop_body items (out ++ header ++ newline) with
      | (out', Ok _) => (out', Raise (SystemExit 0))
      | (out', Raise e) => (out', Raise e)
      end
  | Raise e => (out ++ header ++ newline, Raise e)
  end.
Proof.
  unfold emit, bind, lift, print, sys_exit, raise.
  change (lit "article;resistance") with header.
  rewrite header_can_be_written.
  destruct (iter data) as [items|e]; [|reflexivity].
  destruct (for_each loop_body items _) as [o [u|e]]; reflexivity.
Qed.

(** The [with] block is never left in the ordinary way. *)
Lemma emit_raises (data : value) (out : str) :
  exists out' e, emit data out = (out', Raise e).
Proof.
  rewrite emit_eq. destruct (iter data) as [items|e]; [|eauto].
  destruct (for_each loop_body items _) as [o [u|e]]; eauto.
Qed.

Lemma script_parsed (fs : filesystem) (data : value) (out : str) :
  parses_to fs data -> script fs out = emit data out.
Proof.
  intros (text & Hfs & Hjs).
  destruct (emit_raises data out) as (o & e & He).
  unfold script, with_open, open, json_load, read, bind, ret.
  rewrite Hfs, Hjs, He. reflexivity.
Qed.

Lemma script_unusable (fs : filesystem) (out : str) :
  unusable fs ->
  exists e,
    script fs out = (out, Raise e) /\
    (e = FileNotFoundError \/ e = PermissionError \/
     e = UnicodeDecodeError \/ e = JSONDecodeError).
Proof.
  unfold script, with_open, open, json_load, read, bind, ret, raise.
  intros [H | [H | [H | (text & H & Hjs)]]]; rewrite H; cbn.
  - exists FileNotFoundError. tauto.
  - exists PermissionError. tauto.
  - exists UnicodeDecodeError. tauto.
  - rewrite Hjs. exists JSONDecodeError. tauto.
Qed.

(** Every file system either gives a parsed document or is unusable. *)
Lemma parsed_or_unusable (fs : filesystem) :
  (exists data, parses_to fs data) \/ unusable fs.
Proof.
  unfold parses_to, unusable.
  destruct (fs "../resistance.json") as [| | |text] eqn:E; try tauto.
  destruct (json_loads text) as [data|] eqn:J.
  - left. exists data, text. tauto.
  - right. right. right. right. exists text. tauto.
Qed.

Lemma run_eq (fs : filesystem) :
  run fs = (fst (script fs []), outcome_of (snd (script fs []))).
Proof. unfold run. destruct (script fs []) as [o r]. reflexivity. Qed.

(** The run over a document that can be iterated over. *)
Lemma run_iterable (fs : filesystem) (data : value) (items : list value) :
  parses_to fs data ->
  iter data = Ok items ->
  run fs = (unlines (header :: map row_of (good_prefix items)),
            array_outcome items).
Proof.
  intros Hp Hi. rewrite run_eq, (script_parsed _ _ _ Hp), emit_eq, Hi.
  rewrite for_each_run. unfold array_outcome.
  destruct (first_bad items) as [r|]; cbn [fst snd unlines app].
  - rewrite record_error_crashes. now rewrite <- !app_assoc.
  - now rewrite <- !app_assoc.
Qed.

Lemma run_atom (fs : filesystem) (data : value) :
  parses_to fs data ->
  atom data = true ->
  run fs = (unlines [header], Crashed TypeError).
Proof.
  intros Hp Ha. rewrite run_eq, (script_parsed _ _ _ Hp), emit_eq.
  destruct data; try discriminate; reflexivity.
Qed.

(** The run over an array of records the loop gets past. *)
Lemma run_well_formed (fs : filesystem) (items : list value) :
  parses_to fs (VList items) ->
  forallb row_ok items = true ->
  run fs = (unlines (header :: map row_of items), Exited 0).
Proof.
  intros Hp Hw. rewrite (run_iterable _ _ _ Hp eq_refl).
  unfold array_outcome.
  now rewrite (good_prefix_all _ Hw), (proj2 (first_bad_none _) Hw).
Qed.

Lemma short_error (r : value) :
  short r = true -> row_ok r = false /\ record_error r = IndexError.
Proof.
  unfold row_ok, record_error, short, well_formed.
  destruct r as [| b | n | f | s | items | entries]; cbn [elements];
    try discriminate.
  - destruct s as [|c [|d s]]; cbn [chars]; intros H;
      try discriminate; split; reflexivity.
  - destruct items as [|a [|b rest]]; intros H;
      try discriminate; split; reflexivity.
Qed.

(** The run over an array whose first record with fewer than two elements
    comes after [pre]. *)
Lemma run_short (fs : filesystem) (pre post : list value) (r : value) :
  parses_to fs (VList (pre ++ r :: post)) ->
  forallb row_ok pre = true ->
  short r = true ->
  run fs = (unlines (header :: map row_of pre), Crashed IndexError).
Proof.
  intros Hp Hw Hs. rewrite (run_iterable _ _ _ Hp eq_refl).
  destruct (good_prefix_app pre (r :: post) Hw) as [Hg Hb].
  destruct (short_error _ Hs) as [Hr He].
  unfold array_outcome. rewrite Hg, Hb. cbn [good_prefix first_bad].
  rewrite Hr, He, app_nil_r. reflexivity.
Qed.

(** ** Lists *)

Lemma nth_error_cut {A} (xs : list A) (i : nat) (x : A) :
  nth_error xs i = Some x ->
  xs = firstn i xs ++ x :: skipn (S i) xs.
Proof.
  revert i. induction xs as [|y ys IH]; intros [|i] H; try discriminate.
  - inversion H. reflexivity.
  - cbn [firstn skipn app]. f_equal. apply IH. exact H.
Qed.




(** ** Properties of the output *)

(** Claim C1: when the document parses as an array whose records all have at
    least two elements (the empty array included), the first line on standard
    output is exactly [article;resistance]. *)
Theorem header_is_first_line (fs : filesystem) (items : list value) :
  parses_to fs (VList items) ->
  forallb well_formed items = true ->
  hd_error (lines (fst (run fs))) = Some (lit "article;resistance").
Proof.
  intros Hp Hw. rewrite (run_iterable _ _ _ Hp eq_refl).
  cbn [fst unlines]. rewrite lines_line; reflexivity.
Qed.

(** Claim C2, amended: for an array of N records that all have at least two
    elements, whose rows standard output can encode and whose rows hold no
    line feed, standard output has exactly N+1 lines: the header, then the N
    rows. *)
Theorem line_count (fs : filesystem) (items : list value) :
  parses_to fs (VList items) ->
  forallb well_formed items = true ->
  forallb encodable items = true ->
  forallb (fun r => no_lf (row_of r)) items = true ->
  lines (fst (run fs)) = header :: map row_of items /\
  length (lines (fst (run fs))) = S (length items).
Proof.
  intros Hp Hw He Hn.
  rewrite (run_well_formed _ _ Hp (rows_ok _ Hw He)). cbn [fst].
  assert (E : lines (unlines (header :: map row_of items))
              = header :: map row_of items).
  { apply lines_unlines. cbn [forallb]. apply andb_true_iff.
    split; [reflexivity|]. rewrite forallb_forall in *.
    intros l Hl. apply in_map_iff in Hl as (r & <- & Hr). exact (Hn r Hr). }
  rewrite E. split; [reflexivity|]. cbn [length]. now rewrite length_map.
Qed.

(** Claim C3, amended: for an array of records that all have at least two
    elements, the rows come out in the order of the records and none is left
    out in between: the output is the header followed by the rows of the
    first [k] records in sequence, for some [k].  When standard output can
    encode every row, [k] is the number of records: all the rows come out,
    and the row of the record at index [i] stands right after the rows of the
    [i] records before it and right before the rows of the records after
    it. *)
Theorem rows_in_input_order (fs : filesystem) (items : list value) :
  parses_to fs (VList items) ->
  forallb well_formed items = true ->
  (exists k,
      k <= length items /\
      fst (run fs) = unlines (header :: map row_of (firstn k items))) /\
  (forallb encodable items = true ->
   fst (run fs) = unlines (header :: map row_of items) /\
   forall i r,
     nth_error items i = Some r ->
     fst (run fs) =
     unlines (header :: map row_of (firstn i items))
     ++ row_of r ++ newline
     ++ unlines (map row_of (skipn (S i) items))).
Proof.
  intros Hp Hw. split.
  - destruct (good_prefix_firstn items) as (k & Hk & Hg).
    exists k. split; [exact Hk|].
    rewrite (run_iterable _ _ _ Hp eq_refl), Hg. reflexivity.
  - intros He. rewrite (run_well_formed _ _ Hp (rows_ok _ Hw He)).
    cbn [fst]. split; [reflexivity|]. intros i r Hi.
    rewrite (nth_error_cut _ _ _ Hi) at 1.
    rewrite map_app. cbn [map]. rewrite app_comm_cons, unlines_app.
    reflexivity.
Qed.

(** Claim C4: for a record with more than two elements the turn of the loop
    prints the text of the first element, one [;], and the text of the
    second, and nothing else of the record (when standard output cannot
    encode that row, nothing is written and [UnicodeEncodeError] is raised);
    whatever follows the second element changes neither the output nor the
    way the run ends. *)
Theorem extra_elements_ignored (r article resistance third : value)
    (extra : list value) :
  elements r = Some (article :: resistance :: third :: extra) ->
  (forall out,
      loop_body r out
      = if can_write (py_str article ++ lit ";" ++ py_str resistance)
        then (out ++ (py_str article ++ lit ";" ++ py_str resistance)
                  ++ newline, Ok tt)
        else (out, Raise UnicodeEncodeError))
  /\
  (forall fs fs' pre post r' extra',
      parses_to fs (VList (pre ++ r :: post)) ->
      parses_to fs' (VList (pre ++ r' :: post)) ->
      elements r' = Some (article :: resistance :: extra') ->
      run fs = run fs').
Proof.
  intros Hr. split.
  - intros out. exact (loop_body_two _ _ _ _ out Hr).
  - intros fs fs' pre post r' extra' Hp Hp' Hr'.
    rewrite !run_eq, (script_parsed _ _ _ Hp), (script_parsed _ _ _ Hp').
    rewrite !emit_eq. cbn [iter]. rewrite !for_each_app.
    destruct (for_each loop_body pre _) as [o [u|e]]; [|reflexivity].
    rewrite !for_each_cons.
    rewrite (loop_body_two _ _ _ _ o Hr), (loop_body_two _ _ _ _ o Hr').
    reflexivity.
Qed.

(** ** Failures and exits *)


(** Claim C6: when the file cannot be opened, cannot be decoded, or does not
    hold JSON, the exception is not caught: the run ends as a crash with a
    non-zero status and standard output stays empty, without even the
    header. *)
Theorem unusable_input_crashes (fs : filesystem) :
  unusable fs ->
  fst (run fs) = [] /\
  lines (fst (run fs)) = [] /\
  (exists e, snd (run fs) = Crashed e) /\
  status (snd (run fs)) <> 0%Z.
Proof.
  intros Hu. destruct (script_unusable _ [] Hu) as (e & He & Hcases).
  rewrite run_eq, He. cbn [fst snd lines].
  assert (Hc : outcome_of (Raise e) = Crashed e)
    by (destruct Hcases as [-> | [-> | [-> | ->]]]; reflexivity).
  rewrite Hc. repeat split; [eauto | discriminate].
Qed.

(** Claim C7: whenever the loop runs over the whole parsed sequence without
    raising, the process exits with status 0. *)
Theorem completed_loop_exits_zero (fs : filesystem) (data : value)
    (items : list value) (out out' : str) :
  parses_to fs data ->
  iter data = Ok items ->
  for_each loop_body items out = (out', Ok tt) ->
  snd (run fs) = Exited 0 /\ status (snd (run fs)) = 0%Z.
Proof.
  intros Hp Hi Hloop. rewrite for_each_run in Hloop.
  rewrite (run_iterable _ _ _ Hp Hi). unfold array_outcome. cbn [snd].
  destruct (first_bad items); [discriminate|]. split; reflexivity.
Qed.

(** Claim C8: the exit with status -1 is never reached.  On every run the
    [with] block is left by an exception, so the statement after it is not
    executed: the exception is [SystemExit] with code 0, or one that is not a
    [SystemExit] at all and crashes the run. *)
Theorem failure_exit_unreachable (fs : filesystem) (out : str) :
  (exists out' e,
      with_open fs "../resistance.json"
        (fun file => data <- json_load file ;; emit data) out
      = (out', Raise e) /\
      script fs out = (out', Raise e) /\
      (e = SystemExit 0 \/ outcome_of (Raise e) = Crashed e)) /\
  snd (run fs) <> Exited (-1) /\
  (snd (run fs) = Exited 0 \/ exists e, snd (run fs) = Crashed e).
Proof.
  assert (Hscript : forall o, exists o' e,
             with_open fs "../resistance.json"
               (fun file => data <- json_load file ;; emit data) o
             = (o', Raise e) /\
             script fs o = (o', Raise e) /\
             (e = SystemExit 0 \/ outcome_of (Raise e) = Crashed e)).
  { intros o. destruct (parsed_or_unusable fs) as [(data & Hp) | Hu].
    - assert (Hemit : exists o' e, emit data o = (o', Raise e) /\
                (e = SystemExit 0 \/ outcome_of (Raise e) = Crashed e)).
      { rewrite emit_eq. destruct (iter data) as [items|e] eqn:Hi.
        - rewrite for_each_run. destruct (first_bad items) as [bad|].
          + eexists _, _. split; [reflexivity|]. right.
            apply record_error_crashes.
          + eexists _, _. split; [reflexivity | left; reflexivity].
        - eexists _, _. split; [reflexivity|]. right.
          destruct data; inversion Hi; reflexivity. }
      destruct Hemit as (o' & e & He & Hcase).
      exists o', e. rewrite (script_parsed _ _ o Hp), He.
      repeat split; [|exact Hcase].
      destruct Hp as (text & Hfs & Hjs).
      unfold with_open, open, json_load, read, bind, ret.
      rewrite Hfs, Hjs. exact He.
    - destruct (script_unusable _ o Hu) as (e & He & Hcases).
      exists o, e. repeat split; [|exact He|].
      + revert He. unfold script, bind, sys_exit, raise.
        destruct (with_open _ _ _ o) as [o1 [u|e1]]; intros H;
          inversion H; subst; [|reflexivity].
        destruct Hcases as [Hc | [Hc | [Hc | Hc]]]; discriminate.
      + right. destruct Hcases as [-> | [-> | [-> | ->]]]; reflexivity. }
  split; [exact (Hscript out)|].
  destruct (Hscript []) as (o' & e & _ & He & Hcase).
  rewrite run_eq, He. cbn [snd].
  destruct Hcase as [-> | Hc].
  - split; [discriminate | left; reflexivity].
  - rewrite Hc. split; [discriminate | right; eauto].
Qed.

(** Claim C9: when the first two elements of a record are numbers or
    strings, the row the turn of the loop prints is their natural texts with
    one [;] between them: a string goes out character for character, with no
    quotes and no escapes, also when it holds a [;] itself.  (When standard
    output cannot encode that row, nothing is written and
    [UnicodeEncodeError] is raised.) *)
Theorem scalar_row_unquoted (r article resistance : value)
    (rest : list value) (out : str) :
  elements r = Some (article :: resistance :: rest) ->
  scalar article = true ->
  scalar resistance = true ->
  loop_body r out
  = if can_write (scalar_text article ++ lit ";" ++ scalar_text resistance)
    then (out ++ (scalar_text article ++ lit ";" ++ scalar_text resistance)
              ++ newline, Ok tt)
    else (out, Raise UnicodeEncodeError).
Proof.
  intros Hr Ha Hb. rewrite (loop_body_two _ _ _ _ out Hr).
  unfold row_text, print.
  assert (Hs : forall v, scalar v = true -> py_str v = scalar_text v)
    by (intros []; simpl; intros H; try discriminate; reflexivity).
  now rewrite (Hs _ Ha), (Hs _ Hb).
Qed.

(** Claim C10, amended: when the first record with fewer than two elements
    is at index [i] and standard output can encode the rows of the records
    before it, what is on standard output when the run crashes is exactly the
    header and the rows of records 0 to i-1, with nothing for the record at
    [i]; it is a prefix of the output of every successful run over an array
    that starts with the same [i] records. *)
Theorem output_before_short_record (fs : filesystem) (items : list value)
    (i : nat) (r : value) :
  parses_to fs (VList items) ->
  nth_error items i = Some r ->
  short r = true ->
  forallb well_formed (firstn i items) = true ->
  forallb encodable (firstn i items) = true ->
  fst (run fs) = unlines (header :: map row_of (firstn i items)) /\
  snd (run fs) = Crashed IndexError /\
  forall fs' items',
    parses_to fs' (VList items') ->
    snd (run fs') = Exited 0 ->
    firstn i items' = firstn i items ->
    exists rest, fst (run fs') = fst (run fs) ++ rest.
Proof.
  intros Hp Hi Hs Hw He.
  rewrite (nth_error_cut _ _ _ Hi) in Hp.
  rewrite (run_short _ _ _ _ Hp (rows_ok _ Hw He) Hs). cbn [fst snd].
  split; [reflexivity|]. split; [reflexivity|].
  intros fs' items' Hp' Hexit Hsame.
  rewrite (run_iterable _ _ _ Hp' eq_refl) in Hexit |- *.
  cbn [fst snd] in Hexit |- *. unfold array_outcome in Hexit.
  destruct (first_bad items') as [bad|] eqn:Hb; [discriminate|].
  rewrite (good_prefix_all _ (proj1 (first_bad_none _) Hb)).
  exists (unlines (map row_of (skipn i items'))).
  rewrite <- (firstn_skipn i items') at 1.
  rewrite Hsame, map_app, app_comm_cons, unlines_app. reflexivity.
Qed.

(** ** The run over any document *)

(** X1: over any array the loop gets exactly through the records at its head
    that have two elements and a row standard output can encode: the output
    is the header and their rows, and the run exits with 0 when that is the
    whole array, and otherwise crashes with the exception of the first other
    item: [UnicodeEncodeError] for a record whose row cannot be encoded,
    [IndexError] for a short list or string, [KeyError] for an object,
    [TypeError] for a number, a boolean or null. *)
Theorem array_run (fs : filesystem) (items : list value) :
  parses_to fs (VList items) ->
  run fs = (unlines (header :: map row_of (good_prefix items)),
            array_outcome items).
Proof. intros Hp. exact (run_iterable _ _ _ Hp eq_refl). Qed.

(** X2: the run exits with 0 exactly when the document parses, can be
    iterated over, every item it yields has at least two elements, and
    standard output can encode the row of every item. *)
Theorem exit_zero_iff (fs : filesystem) :
  snd (run fs) = Exited 0 <->
  exists data items,
    parses_to fs data /\ iter data = Ok items /\
    forallb well_formed items = true /\
    forallb encodable items = true.
Proof.
  split.
  - intros H. destruct (parsed_or_unusable fs) as [(data & Hp) | Hu].
    + destruct (iter data) as [items|e] eqn:Hi.
      * exists data, items. split; [exact Hp|]. split; [exact Hi|].
        rewrite (run_iterable _ _ _ Hp Hi) in H. cbn [snd] in H.
        unfold array_outcome in H.
        destruct (first_bad items) eqn:Hb; [discriminate|].
        apply first_bad_none in Hb. rewrite forallb_forall in Hb.
        split; apply forallb_forall; intros r Hr;
          specialize (Hb r Hr); unfold row_ok in Hb;
          apply andb_true_iff in Hb; tauto.
      * assert (Ha : atom data = true)
          by (destruct data; try discriminate; reflexivity).
        rewrite (run_atom _ _ Hp Ha) in H. discriminate.
    + destruct (script_unusable _ [] Hu) as (e & He & Hcases).
      rewrite run_eq, He in H. cbn [snd] in H.
      destruct Hcases as [-> | [-> | [-> | ->]]]; discriminate.
  - intros (data & items & Hp & Hi & Hw & He).
    rewrite (run_iterable _ _ _ Hp Hi). cbn [snd]. unfold array_outcome.
    now rewrite (proj2 (first_bad_none items) (rows_ok _ Hw He)).
Qed.

(** X3: whenever the document parses, whatever value it holds and however
    the run ends, the output starts with the header line and consists of whole
    lines. *)
Theorem header_whenever_parsed (fs : filesystem) (data : value) :
  parses_to fs data ->
  hd_error (lines (fst (run fs))) = Some (lit "article;resistance") /\
  exists rows, fst (run fs) = unlines (header :: rows).
Proof.
  intros Hp.
  assert (H : exists rows, fst (run fs) = unlines (header :: rows)).
  { destruct (iter data) as [items|e] eqn:Hi.
    - rewrite (run_iterable _ _ _ Hp Hi). eexists. reflexivity.
    - assert (Ha : atom data = true)
        by (destruct data; try discriminate; reflexivity).
      rewrite (run_atom _ _ Hp Ha). eexists. reflexivity. }
  split; [|exact H]. destruct H as (rows & ->).
  cbn [unlines]. rewrite lines_line; reflexivity.
Qed.

(** X4: a document that is a number, a boolean or null cannot be iterated
    over: the header is already out, then the run crashes with [TypeError]. *)
Theorem atom_document_crashes (fs : filesystem) (data : value) :
  parses_to fs data ->
  atom data = true ->
  run fs = (unlines [lit "article;resistance"], Crashed TypeError).
Proof. exact (run_atom fs data). Qed.

(** X5: a document that is an object is treated as the array of its keys;
    the values under the keys play no part. *)
Theorem object_document_runs_over_keys (fs fs' : filesystem)
    (entries : list (str * value)) :
  parses_to fs (VDict entries) ->
  parses_to fs' (VList (map (fun kv => VStr (fst kv)) entries)) ->
  run fs = run fs'.
Proof.
  intros Hp Hp'.
  rewrite (run_iterable _ _ _ Hp eq_refl), (run_iterable _ _ _ Hp' eq_refl).
  reflexivity.
Qed.

(** X6: a document that is a string gives the header and nothing else: the
    empty string ends with exit 0, any other string crashes with
    [IndexError] at its first character. *)
Theorem string_document (fs : filesystem) (s : str) :
  parses_to fs (VStr s) ->
  run fs = (unlines [lit "article;resistance"],
            match s with
            | [] => Exited 0
            | _ :: _ => Crashed IndexError
            end).
Proof.
  intros Hp. rewrite (run_iterable _ _ _ Hp eq_refl).
  destruct s as [|c s]; reflexivity.
Qed.

(** X7: the script looks at one path only: two file systems that agree at
    [../resistance.json] give the same run. *)
Theorem only_the_fixed_path (fs fs' : filesystem) :
  fs "../resistance.json" = fs' "../resistance.json" ->
  run fs = run fs'.
Proof.
  intros H. unfold run, script, with_open, open, bind. rewrite H.
  reflexivity.
Qed.

(** X8: appending items to an array of records that all have two elements
    and a row standard output can encode appends to the output what the loop
    writes for them, and the run ends the way the run over the appended items
    alone ends. *)
Theorem appended_records (fs fs1 fs2 : filesystem) (xs ys : list value) :
  forallb well_formed xs = true ->
  forallb encodable xs = true ->
  parses_to fs (VList (xs ++ ys)) ->
  parses_to fs1 (VList xs) ->
  parses_to fs2 (VList ys) ->
  exists w,
    fst (run fs2) = unlines [lit "article;resistance"] ++ w /\
    fst (run fs) = fst (run fs1) ++ w /\
    snd (run fs) = snd (run fs2).
Proof.
  intros Hw He Hp Hp1 Hp2. pose proof (rows_ok _ Hw He) as Hok.
  rewrite (run_iterable _ _ _ Hp eq_refl), (run_iterable _ _ _ Hp1 eq_refl),
    (run_iterable _ _ _ Hp2 eq_refl).
  destruct (good_prefix_app xs ys Hok) as [Hg Hb].
  exists (unlines (map row_of (good_prefix ys))). cbn [fst snd].
  unfold array_outcome. rewrite Hg, Hb, (good_prefix_all _ Hok).
  split; [reflexivity|]. split; [|reflexivity].
  rewrite map_app, app_comm_cons, unlines_app. reflexivity.
Qed.

(** X9: the separator is not protected: a [;] at the end of the first field
    or at the start of the second gives the same row, so the row does not tell
    where the first field ends. *)
Theorem separator_not_protected (s t u : str) (rest rest' : list value)
    (out : str) :
  loop_body (VList (VStr (s ++ lit ";" ++ t) :: VStr u :: rest)) out
  = loop_body (VList (VStr s :: VStr (t ++ lit ";" ++ u) :: rest')) out.
Proof.
  rewrite (loop_body_two (VList (VStr (s ++ lit ";" ++ t) :: VStr u :: rest))
             _ _ rest out eq_refl).
  rewrite (loop_body_two (VList (VStr s :: VStr (t ++ lit ";" ++ u) :: rest'))
             _ _ rest' out eq_refl).
  unfold row_text. cbn [py_str]. now rewrite <- !app_assoc.
Qed.

(** X10: a record given as a string is taken character by character, a
    character being one code point: the turn of the loop prints its first
    character, [;], its second character, and nothing of the rest of the
    string (when standard output cannot encode one of the two characters,
    nothing is written and [UnicodeEncodeError] is raised). *)
Theorem string_record_by_characters (a b : char) (s out : str) :
  loop_body (VStr (a :: b :: s)) out
  = if can_write ([a] ++ lit ";" ++ [b])
    then (out ++ ([a] ++ lit ";" ++ [b]) ++ newline, Ok tt)
    else (out, Raise UnicodeEncodeError).
Proof.
  exact (loop_body_two (VStr (a :: b :: s)) _ _ (chars s) out eq_refl).
Qed.

(** X11: the items after the first one that does not have two elements are
    never looked at: replacing them changes neither the output nor the way the
    run ends. *)
Theorem after_failure_ignored (fs fs' : filesystem)
    (pre post post' : list value) (bad : value) :
  well_formed bad = false ->
  parses_to fs (VList (pre ++ bad :: post)) ->
  parses_to fs' (VList (pre ++ bad :: post')) ->
  run fs = run fs'.
Proof.
  intros Hw Hp Hp'.
  assert (Hb : row_ok bad = false) by (unfold row_ok; now rewrite Hw).
  rewrite (run_iterable _ _ _ Hp eq_refl), (run_iterable _ _ _ Hp' eq_refl).
  unfold array_outcome.
  destruct (good_prefix_stops pre post bad Hb) as [-> ->].
  destruct (good_prefix_stops pre post' bad Hb) as [-> ->].
  reflexivity.
Qed.

End Converter.

(** ** The scenarios, run *)

Example scenario_two_rows :
  run frepr srepr loads utf8 (disk (Text doc_two_rows))
  = (unlines [lit "article;resistance"; lit "R1;10k"; lit "R2;220"],
     Exited 0).
Proof. reflexivity. Qed.

Example scenario_empty :
  run frepr srepr loads utf8 (disk (Text doc_empty))
  = (unlines [lit "article;resistance"], Exited 0).
Proof. reflexivity. Qed.

Example scenario_extra :
  run frepr srepr loads utf8 (disk (Text doc_extra))
  = (unlines [lit "article;resistance"; lit "R1;100"], Exited 0).
Proof. reflexivity. Qed.

Example scenario_absent :
  run frepr srepr loads utf8 (disk Missing) = ([], Crashed FileNotFoundError).
Proof. reflexivity. Qed.

Example scenario_one_field :
  run frepr srepr loads utf8 (disk (Text doc_one_field))
  = (unlines [lit "article;resistance"], Crashed IndexError).
Proof. reflexivity. Qed.

Example scenario_semicolon :
  run frepr srepr loads utf8 (disk (Text doc_semicolon))
  = (unlines [lit "article;resistance"; lit "a;b;-5"], Exited 0).
Proof. reflexivity. Qed.

Example scenario_omega_record :
  loop_body frepr srepr utf8 (VStr [937%N; 97%N]) []
  = ([937%N; 59%N; 97%N; 10%N], Ok tt).
Proof. reflexivity. Qed.

Example scenario_surrogate :
  run frepr srepr loads utf8 (disk (Text doc_surrogate))
  = (unlines [lit "article;resistance"; lit "R1;10k"],
     Crashed UnicodeEncodeError).
Proof. reflexivity. Qed.

(** ** The properties at the scenarios *)

Lemma header_is_first_line_empty_array :
  parses_to loads (disk (Text doc_empty)) (VList []) /\
  hd_error (lines (fst (run frepr srepr loads utf8 (disk (Text doc_empty)))))
  = Some (lit "article;resistance").
Proof.
  assert (Hp : parses_to loads (disk (Text doc_empty)) (VList []))
    by (exists doc_empty; split; reflexivity).
  split; [exact Hp|].
  apply (header_is_first_line frepr srepr loads utf8 _ [] Hp). reflexivity.
Defined.

(** A string element that holds a line feed spreads its row over two lines:
    one well-formed record, three lines of output. *)
Lemma line_count_with_line_feed :
  parses_to loads (disk (Text doc_line_feed)) (VList line_feed_row) /\
  forallb well_formed line_feed_row = true /\
  lines (fst (run frepr srepr loads utf8 (disk (Text doc_line_feed))))
  = [lit "article;resistance"; lit "a"; lit "b;c"] /\
  length (lines (fst (run frepr srepr loads utf8 (disk (Text doc_line_feed)))))
  <> S (length line_feed_row).
Proof.
  split; [exists doc_line_feed; split; reflexivity|].
  split; [reflexivity|]. split; [reflexivity|].
  vm_compute. discriminate.
Qed.

Lemma line_count_two_rows :
  forallb (fun r => no_lf (row_of frepr srepr r)) two_rows = true /\
  length (lines (fst (run frepr srepr loads utf8 (disk (Text doc_two_rows)))))
  = 3.
Proof.
  split; [reflexivity|].
  apply (line_count frepr srepr loads utf8 (disk (Text doc_two_rows))
           two_rows).
  - exists doc_two_rows. split; reflexivity.
  - reflexivity.
  - reflexivity.
  - reflexivity.
Defined.

(** Three records with two elements each, the second with a lone surrogate
    that UTF-8 cannot encode: the run crashes at the second row, and the rows
    of the second and third record never come out. *)
Lemma rows_stop_at_unencodable :
  parses_to loads (disk (Text doc_surrogate)) (VList surrogate_rows) /\
  forallb well_formed surrogate_rows = true /\
  run frepr srepr loads utf8 (disk (Text doc_surrogate))
  = (unlines [lit "article;resistance"; lit "R1;10k"],
     Crashed UnicodeEncodeError) /\
  fst (run frepr srepr loads utf8 (disk (Text doc_surrogate)))
  <> unlines (header :: map (row_of frepr srepr) surrogate_rows).
Proof.
  split; [exists doc_surrogate; split; reflexivity|].
  split; [reflexivity|]. split; [reflexivity|].
  intros H. apply (f_equal (@length char)) in H. vm_compute in H.
  discriminate.
Qed.

Lemma rows_in_input_order_two_rows :
  fst (run frepr srepr loads utf8 (disk (Text doc_two_rows)))
  = unlines [lit "article;resistance"; lit "R1;10k"; lit "R2;220"].
Proof.
  destruct (rows_in_input_order frepr srepr loads utf8
              (disk (Text doc_two_rows)) two_rows) as [_ Hall].
  - exists doc_two_rows. split; reflexivity.
  - reflexivity.
  - destruct Hall as [Hout _]; [reflexivity | exact Hout].
Defined.

Lemma extra_elements_ignored_third :
  loop_body frepr srepr utf8
    (VList [VStr (lit "R1"); VInt 100; VStr (lit "extra")]) []
  = (unlines [lit "R1;100"], Ok tt).
Proof.
  destruct (extra_elements_ignored frepr srepr loads utf8
              (VList [VStr (lit "R1"); VInt 100; VStr (lit "extra")])
              (VStr (lit "R1")) (VInt 100) (VStr (lit "extra")) [])
    as [Hrow _].
  - reflexivity.
  - rewrite Hrow. reflexivity.
Defined.


Lemma unusable_input_crashes_truncated :
  unusable loads (disk (Text doc_truncated)) /\
  fst (run frepr srepr loads utf8 (disk (Text doc_truncated))) = [].
Proof.
  assert (Hu : unusable loads (disk (Text doc_truncated))).
  { right. right. right. exists doc_truncated. split; reflexivity. }
  split; [exact Hu|].
  apply (unusable_input_crashes frepr srepr loads utf8 _ Hu).
Defined.

Lemma completed_loop_exits_zero_two_rows :
  for_each (loop_body frepr srepr utf8) two_rows []
  = (unlines [lit "R1;10k"; lit "R2;220"], Ok tt) /\
  status (snd (run frepr srepr loads utf8 (disk (Text doc_two_rows)))) = 0%Z.
Proof.
  split; [reflexivity|].
  apply (completed_loop_exits_zero frepr srepr loads utf8
           (disk (Text doc_two_rows)) (VList two_rows) two_rows
           [] (unlines [lit "R1;10k"; lit "R2;220"])).
  - exists doc_two_rows. split; reflexivity.
  - reflexivity.
  - reflexivity.
Defined.

Lemma scalar_row_unquoted_semicolon :
  loop_body frepr srepr utf8 (VList [VStr (lit "a;b"); VInt (-5)]) []
  = (unlines [lit "a;b;-5"], Ok tt).
Proof.
  rewrite (scalar_row_unquoted frepr srepr utf8
             (VList [VStr (lit "a;b"); VInt (-5)])
             (VStr (lit "a;b")) (VInt (-5)) [] []);
    reflexivity.
Defined.

(** The first record has two elements but a lone surrogate, the second has
    one element: the run crashes at the first row with [UnicodeEncodeError],
    and the row of the record before the short one is not on the output. *)
Lemma output_before_short_unencodable :
  parses_to loads (disk (Text doc_surrogate_then_short))
    (VList surrogate_then_short) /\
  nth_error surrogate_then_short 1 = Some (VList [VStr (lit "x")]) /\
  short (VList [VStr (lit "x")]) = true /\
  forallb well_formed (firstn 1 surrogate_then_short) = true /\
  run frepr srepr loads utf8 (disk (Text doc_surrogate_then_short))
  = (unlines [lit "article;resistance"], Crashed UnicodeEncodeError) /\
  fst (run frepr srepr loads utf8 (disk (Text doc_surrogate_then_short)))
  <> unlines (header
                :: map (row_of frepr srepr) (firstn 1 surrogate_then_short)).
Proof.
  split; [exists doc_surrogate_then_short; split; reflexivity|].
  repeat (split; [reflexivity|]).
  intros H. apply (f_equal (@length char)) in H. vm_compute in H.
  discriminate.
Qed.

Lemma output_before_short_record_second :
  nth_error short_second 1 = Some (VList [VStr (lit "R2")]) /\
  fst (run frepr srepr loads utf8 (disk (Text doc_short_second)))
  = unlines [lit "article;resistance"; lit "R1;10k"].
Proof.
  split; [reflexivity|].
  apply (output_before_short_record frepr srepr loads utf8
           (disk (Text doc_short_second)) short_second 1
           (VList [VStr (lit "R2")])).
  - exists doc_short_second. split; reflexivity.
  - reflexivity.
  - reflexivity.
  - reflexivity.
  - reflexivity.
Defined.

(** ** The further properties at the scenarios *)

Lemma array_run_number_record :
  run frepr srepr loads utf8 (disk (Text doc_number_record))
  = (unlines [lit "article;resistance"; lit "R1;10k"], Crashed TypeError).
Proof.
  apply (array_run frepr srepr loads utf8
           (disk (Text doc_number_record)) number_record).
  exists doc_number_record. split; reflexivity.
Defined.

Lemma header_whenever_parsed_number :
  hd_error
    (lines (fst (run frepr srepr loads utf8 (disk (Text doc_number)))))
  = Some (lit "article;resistance").
Proof.
  apply (header_whenever_parsed frepr srepr loads utf8
           (disk (Text doc_number)) (VInt 42)).
  exists doc_number. split; reflexivity.
Defined.

Lemma atom_document_crashes_number :
  run frepr srepr loads utf8 (disk (Text doc_number))
  = (unlines [lit "article;resistance"], Crashed TypeError).
Proof.
  apply (atom_document_crashes frepr srepr loads utf8
           (disk (Text doc_number)) (VInt 42)).
  - exists doc_number. split; reflexivity.
  - reflexivity.
Defined.

Lemma object_document_runs_over_keys_two :
  run frepr srepr loads utf8 (disk (Text doc_object))
  = run frepr srepr loads utf8 (disk (Text doc_object_keys)).
Proof.
  apply (object_document_runs_over_keys frepr srepr loads utf8
           (disk (Text doc_object)) (disk (Text doc_object_keys))
           object_entries).
  - exists doc_object. split; reflexivity.
  - exists doc_object_keys. split; reflexivity.
Defined.

Lemma string_document_two_characters :
  run frepr srepr loads utf8 (disk (Text doc_string))
  = (unlines [lit "article;resistance"], Crashed IndexError).
Proof.
  apply (string_document frepr srepr loads utf8
           (disk (Text doc_string)) (lit "R1")).
  exists doc_string. split; reflexivity.
Defined.

Lemma only_the_fixed_path_two_disks :
  run frepr srepr loads utf8 (disk (Text doc_two_rows))
  = run frepr srepr loads utf8 (fun _ => Text doc_two_rows).
Proof.
  apply (only_the_fixed_path frepr srepr loads utf8
           (disk (Text doc_two_rows)) (fun _ => Text doc_two_rows)).
  reflexivity.
Defined.

Lemma appended_records_extra_row :
  exists w,
    fst (run frepr srepr loads utf8 (disk (Text doc_extra)))
    = unlines [lit "article;resistance"] ++ w /\
    fst (run frepr srepr loads utf8 (disk (Text doc_three_rows)))
    = fst (run frepr srepr loads utf8 (disk (Text doc_two_rows))) ++ w /\
    snd (run frepr srepr loads utf8 (disk (Text doc_three_rows)))
    = snd (run frepr srepr loads utf8 (disk (Text doc_extra))).
Proof.
  apply (appended_records frepr srepr loads utf8
           (disk (Text doc_three_rows)) (disk (Text doc_two_rows))
           (disk (Text doc_extra)) two_rows extra_row).
  - reflexivity.
  - reflexivity.
  - exists doc_three_rows. split; reflexivity.
  - exists doc_two_rows. split; reflexivity.
  - exists doc_extra. split; reflexivity.
Defined.

Lemma after_failure_ignored_number :
  run frepr srepr loads utf8 (disk (Text doc_number_record))
  = run frepr srepr loads utf8 (disk (Text doc_number_last)).
Proof.
  apply (after_failure_ignored frepr srepr loads utf8
           (disk (Text doc_number_record)) (disk (Text doc_number_last))
           [VList [VStr (lit "R1"); VStr (lit "10k")]]
           [VList [VStr (lit "R2"); VStr (lit "220")]] [] (VInt 5)).
  - reflexivity.
  - exists doc_number_record. split; reflexivity.
  - exists doc_number_last. split; reflexivity.
Defined.
